(** * The Postgres provider of Keep

    A shallow embedding of
    [keep/providers/postgres_provider/postgres_provider.py].

    The module is a thin wrapper around two external libraries: pydantic
    (the dataclass [PostgresProviderAuthConfig] is built by its generated
    constructor) and psycopg2 (connections and cursors).  Python objects
    that are shared by reference -- connections and cursors -- live in an
    explicit store and are named by their index in it; the provider holds
    such an index in [self.conn].  Methods are computations in a small
    state-and-exception monad over the pair (provider instance, database
    driver world). *)

From stdpp Require Import base strings gmap list.
From Stdlib Require Import ZArith Lia.

Open Scope string_scope.
Open Scope list_scope.

(** ** Values *)

(** The Python values that flow through the module: the entries of the
    configuration mapping and of [kwargs] are strings, or [None] (what
    [os.environ.get] and [dict.get] return for a missing name). *)
Inductive pyval : Type :=
| PNone
| PStr (s : string).

(** A value of a result column, and a row (a Python tuple of columns). *)
Inductive sqlval : Type :=
| SqlNull
| SqlInt (n : Z)
| SqlText (s : string).

Definition row : Type := list sqlval.

(** Exceptions (all of them subclasses of [Exception]). *)
Inductive exn : Type :=
| ValueError (msg : string)
| TypeError
| AttributeError
| ValidationError
| InterfaceError
| ProgrammingError
| OperationalError
| DatabaseError.

Inductive outcome (A : Type) : Type :=
| Return (a : A)
| Raise (e : exn).
Arguments Return {A} a.
Arguments Raise {A} e.

(** [bool(v)] for the values above: [None] and the empty string are falsy. *)
Definition truthy (v : pyval) : bool :=
  match v with
  | PNone => false
  | PStr EmptyString => false
  | PStr (String _ _) => true
  end.

(** [d.get(k)]: the value under [k], or [None]. *)
Definition dict_get (d : gmap string pyval) (k : string) : pyval :=
  match d !! k with
  | Some v => v
  | None => PNone
  end.

(** ** The authentication dataclass *)

Record PostgresProviderAuthConfig : Type := AuthConfig {
  username : string;
  password : string;
  host : string;
  database : option string;
  port : option string
}.

(** What pydantic does with keyword arguments that name no field differs
    between its releases (dropped silently, or rejected); the development
    is parametric in that choice. *)
Inductive Extra : Type := ExtraIgnore | ExtraForbid.

Definition field_names : gset string :=
  {[ "username"; "password"; "host"; "database"; "port" ]}.

(** Validation of a field annotated [str]. *)
Definition validate_str (v : pyval) : outcome string :=
  match v with
  | PStr s => Return s
  | PNone => Raise ValidationError
  end.

(** Validation of a field annotated [str | None]. *)
Definition validate_optional_str (v : pyval) : outcome (option string) :=
  match v with
  | PStr s => Return (Some s)
  | PNone => Return None
  end.

Definition obind {A B} (o : outcome A) (k : A -> outcome B) : outcome B :=
  match o with
  | Return a => k a
  | Raise e => Raise e
  end.

(** The constructor generated for the dataclass, called with keyword
    arguments [kw] (the mapping, unpacked by the caller).  The fields
    [username], [password], [host] and [database] are declared without a
    default, so each of them is a required argument of the constructor;
    [port] is declared with the default ["5432"].  A missing or unexpected
    argument is reported as [TypeError], a value of the wrong shape as
    [ValidationError]. *)
Definition PostgresProviderAuthConfig_new (extra : Extra)
    (kw : gmap string pyval) : outcome PostgresProviderAuthConfig :=
  if match extra with
     | ExtraForbid => negb (bool_decide (dom kw ⊆ field_names))
     | ExtraIgnore => false
     end
  then Raise TypeError
  else
    match kw !! "username", kw !! "password", kw !! "host", kw !! "database" with
    | Some u, Some p, Some h, Some d =>
        obind (validate_str u) (fun u' =>
        obind (validate_str p) (fun p' =>
        obind (validate_str h) (fun h' =>
        obind (validate_optional_str d) (fun d' =>
        obind (match kw !! "port" with
               | Some v => validate_optional_str v
               | None => Return (Some "5432")
               end) (fun port' =>
        Return (AuthConfig u' p' h' d' port'))))))
    | _, _, _, _ => Raise TypeError
    end.

(** The failures of configuration: a missing or unexpected argument, or a
    value of the wrong shape. *)
Definition ConfigError (e : exn) : Prop :=
  e = TypeError \/ e = ValidationError.

(** ** The driver world *)

(** A psycopg2 connection object.  Statements executed on it are pending
    (inside the open transaction) until [commit]; [close] discards what is
    pending. *)
Record connection : Type := Connection {
  closed : bool;
  pending : list string;
  committed : list string;
  commits : nat
}.

(** A psycopg2 cursor object: the connection it belongs to, whether it was
    closed, and the rows of the last statement ([None]: no result set). *)
Record cursor : Type := Cursor {
  cursor_connection : nat;
  cursor_closed : bool;
  cursor_rows : option (list row)
}.

(** The store of driver objects; [clock] counts the calls made to the
    driver. *)
Record world : Type := World {
  connections : list connection;
  cursors : list cursor;
  clock : nat
}.

(** The behaviour of the network and of the server, as seen by the driver:
    whether a login is accepted, which failure (if any) strikes the driver
    call made at a given time, and what a statement returns when it runs
    ([None] for a statement without a result set). *)
Record server : Type := Server {
  accepts : option string -> string -> string -> string -> option string -> bool;
  fault : nat -> option exn;
  result_set : nat -> string -> option (list row)
}.

(** ** The provider instance *)

Record PostgresProvider : Type := Provider {
  config_authentication : gmap string pyval;
  authentication_config : option PostgresProviderAuthConfig;
  conn : option nat;
  logger : list string
}.

Record state : Type := State {
  self : PostgresProvider;
  db : world
}.

(** ** Computations *)

Definition M (A : Type) : Type := state -> outcome A * state.

Definition ret {A} (a : A) : M A := fun st => (Return a, st).

Definition raise {A} (e : exn) : M A := fun st => (Raise e, st).

Definition bind {A B} (m : M A) (k : A -> M B) : M B :=
  fun st =>
    match m st with
    | (Return a, st') => k a st'
    | (Raise e, st') => (Raise e, st')
    end.

Declare Scope py_scope.
Delimit Scope py_scope with py.
Notation "x <- m ;; k" := (bind m (fun x => k))
  (at level 100, m at next level, right associativity) : py_scope.
Notation "m ;;; k" := (bind m (fun _ => k))
  (at level 100, right associativity) : py_scope.
Open Scope py_scope.

(** [try: body finally: fin].  The [finally] clause runs whatever the
    outcome of the body; an exception of its own replaces that outcome. *)
Definition try_finally {A} (body : M A) (fin : M unit) : M A :=
  fun st =>
    let '(r, st1) := body st in
    match fin st1 with
    | (Return _, st2) => (r, st2)
    | (Raise e, st2) => (Raise e, st2)
    end.

(** [try: body except Exception: handler]. *)
Definition try_except {A} (body : M A) (handler : exn -> M A) : M A :=
  fun st =>
    match body st with
    | (Return a, st1) => (Return a, st1)
    | (Raise e, st1) => handler e st1
    end.

Definition set_db (w : world) (st : state) : state :=
  State (self st) w.

Definition set_self (p : PostgresProvider) (st : state) : state :=
  State p (db st).

Definition get_self : M PostgresProvider := fun st => (Return (self st), st).

Definition get_db : M world := fun st => (Return (db st), st).

Definition put_self (p : PostgresProvider) : M unit :=
  fun st => (Return tt, set_self p st).

Definition put_db (w : world) : M unit :=
  fun st => (Return tt, set_db w st).

Definition lift {A} (o : outcome A) : M A := fun st => (o, st).

(** ** psycopg2 *)

Definition new_connection : connection := Connection false [] [] 0.

(** [close()] on a connection: the transaction in progress is discarded and
    the object is marked closed. *)
Definition close_connection (c : connection) : connection :=
  Connection true [] (committed c) (commits c).

Definition commit_connection (c : connection) : connection :=
  Connection (closed c) [] (committed c ++ pending c) (S (commits c)).

Definition run_on_connection (q : string) (c : connection) : connection :=
  Connection (closed c) (pending c ++ [q]) (committed c) (commits c).

Definition close_cursor (c : cursor) : cursor :=
  Cursor (cursor_connection c) true (cursor_rows c).

Definition set_rows (rs : option (list row)) (c : cursor) : cursor :=
  Cursor (cursor_connection c) (cursor_closed c) rs.

(** The object behind a handle, updated in place. *)
Definition update {A} (i : nat) (f : A -> A) (l : list A) : list A :=
  match l !! i with
  | Some x => <[i := f x]> l
  | None => l
  end.

Definition is_open (w : world) (h : nat) : bool :=
  match connections w !! h with
  | Some c => negb (closed c)
  | None => false
  end.

(** A cursor is usable while neither it nor its connection is closed. *)
Definition cursor_usable (w : world) (cur : nat) : bool :=
  match cursors w !! cur with
  | Some c => negb (cursor_closed c) && is_open w (cursor_connection c)
  | None => false
  end.

Section Driver.

Variable srv : server.

(** One call into the driver: the clock advances, and the call fails if
    the environment strikes it with a fault.  Returns the time of the
    call. *)
Definition driver_call : M nat :=
  fun st =>
    let w := db st in
    let st' := set_db (World (connections w) (cursors w) (S (clock w))) st in
    match fault srv (clock w) with
    | Some e => (Raise e, st')
    | None => (Return (clock w), st')
    end.

(** [psycopg2.connect(dbname=, user=, password=, host=, port=)]: a new,
    open connection object, or an exception -- no object is created
    then. *)
Definition psycopg2_connect (dbname : option string)
    (user passwd hostname : string) (portno : option string) : M nat :=
  driver_call ;;;
  if accepts srv dbname user passwd hostname portno then
    w <- get_db ;;
    put_db (World (connections w ++ [new_connection]) (cursors w) (clock w)) ;;;
    ret (length (connections w))
  else raise OperationalError.

(** [conn.cursor()]. *)
Definition connection_cursor (h : nat) : M nat :=
  w <- get_db ;;
  if is_open w h then
    driver_call ;;;
    w <- get_db ;;
    put_db (World (connections w) (cursors w ++ [Cursor h false None]) (clock w)) ;;;
    ret (length (cursors w))
  else raise InterfaceError.

(** [cur.execute(q)]. *)
Definition cursor_execute (cur : nat) (q : pyval) : M unit :=
  match q with
  | PNone => raise TypeError
  | PStr s =>
      w <- get_db ;;
      if cursor_usable w cur then
        t <- driver_call ;;
        w <- get_db ;;
        let h := default 0 (cursor_connection <$> cursors w !! cur) in
        put_db (World (update h (run_on_connection s) (connections w))
                      (update cur (set_rows (result_set srv t s)) (cursors w))
                      (clock w))
      else raise InterfaceError
  end.

(** [cur.fetchall()]: all the rows that remain, in the order the server
    sent them. *)
Definition cursor_fetchall (cur : nat) : M (list row) :=
  w <- get_db ;;
  if cursor_usable w cur then
    driver_call ;;;
    w <- get_db ;;
    match cursor_rows <$> cursors w !! cur with
    | Some (Some rs) =>
        put_db (World (connections w) (update cur (set_rows (Some [])) (cursors w))
                      (clock w)) ;;;
        ret rs
    | _ => raise ProgrammingError
    end
  else raise InterfaceError.

(** [cur.close()]: never fails. *)
Definition cursor_close (cur : nat) : M unit :=
  w <- get_db ;;
  put_db (World (connections w) (update cur close_cursor (cursors w)) (clock w)).

(** [conn.commit()]. *)
Definition connection_commit (h : nat) : M unit :=
  w <- get_db ;;
  if is_open w h then
    driver_call ;;;
    w <- get_db ;;
    put_db (World (update h commit_connection (connections w)) (cursors w) (clock w))
  else raise InterfaceError.

(** [conn.close()]: never fails, and closing twice is harmless. *)
Definition connection_close (h : nat) : M unit :=
  w <- get_db ;;
  put_db (World (update h close_connection (connections w)) (cursors w) (clock w)).

(** [with cm as cur: body].  A cursor is its own context manager; leaving
    the block closes it and lets an exception of the body through. *)
Definition with_ {A} (cm : M nat) (body : nat -> M A) : M A :=
  cur <- cm ;;
  try_finally (body cur) (cursor_close cur).

(** ** The provider's methods *)

(** [__init_connection]. *)
Definition __init_connection : M nat :=
  p <- get_self ;;
  match authentication_config p with
  | None => raise AttributeError
  | Some cfg =>
      c <- psycopg2_connect (database cfg) (username cfg) (password cfg)
                            (host cfg) (port cfg) ;;
      p <- get_self ;;
      put_self (Provider (config_authentication p) (authentication_config p)
                         (Some c) (logger p)) ;;;
      ret c
  end.

(** [self.logger.exception(msg)]. *)
Definition logger_exception (msg : string) : M unit :=
  p <- get_self ;;
  put_self (Provider (config_authentication p) (authentication_config p)
                     (conn p) (logger p ++ [msg])).

(** [self.conn.close()]: an attribute error when [self.conn] is [None],
    else the [close] method of the object it holds. *)
Definition self_conn_close (close : nat -> M unit) : M unit :=
  p <- get_self ;;
  match conn p with
  | None => raise AttributeError
  | Some h => close h
  end.

(** [dispose], for an arbitrary behaviour of the [close] method. *)
Definition dispose_with (close : nat -> M unit) : M unit :=
  try_except (self_conn_close close)
    (fun _ => logger_exception "Error closing Postgres connection").

Definition dispose : M unit := dispose_with connection_close.

Definition query (kwargs : gmap string pyval) : M (list row) :=
  let query := dict_get kwargs "query" in
  if negb (truthy query) then raise (ValueError "Query is required")
  else
    conn <- __init_connection ;;
    try_finally
      (results <- with_ (connection_cursor conn) (fun _ =>
         cur <- connection_cursor conn ;;
         cursor_execute cur query ;;;
         results <- cursor_fetchall cur ;;
         cursor_close cur ;;;
         connection_close conn ;;;
         ret results) ;;
       ret results)
      (connection_close conn).

Definition notify (kwargs : gmap string pyval) : M unit :=
  let query := dict_get kwargs "query" in
  if negb (truthy query) then raise (ValueError "Query is required")
  else
    conn <- __init_connection ;;
    try_finally
      (with_ (connection_cursor conn) (fun _ =>
         cur <- connection_cursor conn ;;
         cursor_execute cur query ;;;
         cursor_close cur ;;;
         connection_commit conn ;;;
         connection_close conn))
      (connection_close conn).

End Driver.

Section Configuration.

Variable extra : Extra.

Definition validate_config : M unit :=
  p <- get_self ;;
  cfg <- lift (PostgresProviderAuthConfig_new extra (config_authentication p)) ;;
  put_self (Provider (config_authentication p) (Some cfg) (conn p) (logger p)).

End Configuration.

(** [PostgresProvider(provider_id, config)] as this module leaves it:
    [self.conn = None]. *)
Definition new_provider (authentication : gmap string pyval) : PostgresProvider :=
  Provider authentication None None [].

Definition empty_world : world := World [] [] 0.

(** A server that accepts every login, never fails, and answers every
    statement with the given rows. *)
Definition quiet_server (rows : list row) : server :=
  Server (fun _ _ _ _ _ => true) (fun _ => None) (fun _ _ => Some rows).

Definition sample_authentication : gmap string pyval :=
  {[ "username" := PStr "u"; "password" := PStr "p";
     "host" := PStr "localhost"; "database" := PStr "db" ]}.

Definition sample_config : PostgresProviderAuthConfig :=
  AuthConfig "u" "p" "localhost" (Some "db") (Some "5432").

(** ** Vocabulary of the statements *)

(** The argument [query] is absent, [None], or the empty string. *)
Definition query_missing (kwargs : gmap string pyval) : Prop :=
  kwargs !! "query" = None \/
  kwargs !! "query" = Some PNone \/
  kwargs !! "query" = Some (PStr "").

(** [respects R m]: whatever [m] does, and however it ends, the state it
    leaves is related by [R] to the state it started from. *)
Definition respects {A} (R : relation state) (m : M A) : Prop :=
  forall st, R st (snd (m st)).

(** The connection behind handle [h] exists and is closed. *)
Definition closed_at (l : list connection) (h : nat) : bool :=
  match l !! h with
  | Some c => closed c
  | None => false
  end.

(** The relation between the states around a piece of code that neither
    opens a connection nor touches the provider instance: the same
    connection objects exist, and those that were closed are closed. *)
Record steady (st st' : state) : Prop := Steady {
  steady_self : self st' = self st;
  steady_length :
    length (connections (db st')) = length (connections (db st));
  steady_closed : forall h,
    closed_at (connections (db st)) h = true ->
    closed_at (connections (db st')) h = true
}.

(** What a call leaves behind: at most one connection object was created,
    every connection created by the call is closed, connections that were
    closed before are closed still, and [self.conn] either holds what it
    held or names a closed connection. *)
Record released (st st' : state) : Prop := Released {
  released_bound :
    length (connections (db st)) <= length (connections (db st'))
    /\ length (connections (db st')) <= S (length (connections (db st)));
  released_new : forall h,
    length (connections (db st)) <= h ->
    h < length (connections (db st')) ->
    closed_at (connections (db st')) h = true;
  released_old : forall h,
    closed_at (connections (db st)) h = true ->
    closed_at (connections (db st')) h = true;
  released_conn :
    conn (self st') = conn (self st) \/
    exists h, conn (self st') = Some h /\
              closed_at (connections (db st')) h = true
}.

(** Every connection object of the store is closed. *)
Definition all_closed (st : state) : Prop :=
  forall h, h < length (connections (db st)) ->
            closed_at (connections (db st)) h = true.

(** ** Sample data *)

(** A provider as constructed, and the same provider once validated. *)
Definition sample_state : state :=
  State (new_provider sample_authentication) empty_world.

Definition configured_state : state :=
  State (Provider sample_authentication (Some sample_config) None []) empty_world.

(** A configuration whose [username] is the empty string. *)
Definition empty_username_authentication : gmap string pyval :=
  {[ "username" := PStr ""; "password" := PStr "p";
     "host" := PStr "localhost"; "database" := PStr "db" ]}.

Definition empty_username_state : state :=
  State (new_provider empty_username_authentication) empty_world.

Definition empty_username_configured : state :=
  State (Provider empty_username_authentication
           (Some (AuthConfig "" "p" "localhost" (Some "db") (Some "5432"))) None [])
        empty_world.

(** A configuration without the key [database]. *)
Definition no_database_authentication : gmap string pyval :=
  {[ "username" := PStr "u"; "password" := PStr "p"; "host" := PStr "localhost" ]}.

(** Keyword arguments of [query] and [notify]. *)
Definition empty_query : gmap string pyval := {[ "query" := PStr "" ]}.

Definition select_1 : gmap string pyval := {[ "query" := PStr "select 1" ]}.

Definition insert_1 : gmap string pyval :=
  {[ "query" := PStr "insert into t values (1)" ]}.

(** The state a successful [notify insert_1] leaves from [configured_state]. *)
Definition notified_state : state :=
  State (Provider sample_authentication (Some sample_config) (Some 0) [])
        (World [Connection true [] ["insert into t values (1)"] 1]
               [Cursor 0 true None; Cursor 0 true (Some [])] 5).

(** ** The entry point and sequences of calls *)

(** [os.environ.get(name)]. *)
Definition environ_get (environ : gmap string string) (name : string) : pyval :=
  match environ !! name with
  | Some v => PStr v
  | None => PNone
  end.

(** The authentication mapping the module builds when it is run as a
    script. *)
Definition main_authentication (environ : gmap string string) : gmap string pyval :=
  {[ "username" := environ_get environ "POSTGRES_USER";
     "password" := environ_get environ "POSTGRES_PASSWORD";
     "host" := environ_get environ "POSTGRES_HOST";
     "database" := environ_get environ "POSTGRES_DATABASE" ]}.

(** A method call made by a client of the provider. *)
Inductive call : Type :=
| CallValidateConfig
| CallQuery (kwargs : gmap string pyval)
| CallNotify (kwargs : gmap string pyval)
| CallDispose.

(** The state after a call, whatever its outcome (a client that goes on
    after an exception). *)
Definition after_call (srv : server) (extra : Extra) (c : call) (st : state) : state :=
  match c with
  | CallValidateConfig => snd (validate_config extra st)
  | CallQuery kwargs => snd (query srv kwargs st)
  | CallNotify kwargs => snd (notify srv kwargs st)
  | CallDispose => snd (dispose st)
  end.

Definition after_calls (srv : server) (extra : Extra) (cs : list call) (st : state) : state :=
  foldl (fun st c => after_call srv extra c st) st cs.

(** The provider is at rest: every connection object is closed, and
    [self.conn] is [None] or names one of them. *)
Definition at_rest (st : state) : Prop :=
  all_closed st /\
  match conn (self st) with
  | Some h => closed_at (connections (db st)) h = true
  | None => True
  end.

(** A server on which statements have no result set. *)
Definition silent_server : server :=
  Server (fun _ _ _ _ _ => true) (fun _ => None) (fun _ _ => None).

(** A server on which the driver call made at time [n] fails with [e]. *)
Definition failing_server (n : nat) (e : exn) : server :=
  Server (fun _ _ _ _ _ => true)
         (fun t => if Nat.eqb t n then Some e else None)
         (fun _ _ => Some []).

(** A server that refuses every login. *)
Definition refusing_server : server :=
  Server (fun _ _ _ _ _ => false) (fun _ => None) (fun _ _ => None).

Definition sample_environ : gmap string string :=
  {[ "POSTGRES_USER" := "u"; "POSTGRES_PASSWORD" := "p";
     "POSTGRES_HOST" := "localhost" ]}.

(** A provider that holds the handle of an open connection. *)
Definition holding_state : state :=
  State (Provider sample_authentication (Some sample_config) (Some 0) ["earlier"])
        (World [new_connection] [] 1).

(** A configuration that gives [database] and [port] as [None]. *)
Definition none_port_authentication : gmap string pyval :=
  {[ "username" := PStr "u"; "password" := PStr "p"; "host" := PStr "localhost";
     "database" := PNone; "port" := PNone ]}.

(** A server that accepts one login only, and answers with no rows. *)
Definition picky_server : server :=
  Server (fun d u p h n =>
            bool_decide ((d, u, p, h, n)
                         = (Some "db", "u", "p", "localhost", Some "5432")))
         (fun _ => None) (fun _ _ => Some []).

(** * Sample runs *)

Example validate_sample :
  PostgresProviderAuthConfig_new ExtraForbid sample_authentication = Return sample_config.
Proof. vm_compute. reflexivity. Qed.

Example query_select_1 :
  fst (query (quiet_server [[SqlInt 1]]) select_1 configured_state)
  = Return [[SqlInt 1]].
Proof. vm_compute. reflexivity. Qed.

(** * Configuration *)

Lemma validate_config_eq extra st :
  validate_config extra st =
  match PostgresProviderAuthConfig_new extra (config_authentication (self st)) with
  | Return cfg =>
      (Return tt,
       set_self (Provider (config_authentication (self st)) (Some cfg)
                          (conn (self st)) (logger (self st))) st)
  | Raise e => (Raise e, st)
  end.
Proof.
  unfold validate_config, bind, get_self, lift, put_self.
  destruct (PostgresProviderAuthConfig_new _ _); reflexivity.
Qed.

(** What a successful construction tells about the keyword arguments. *)
Lemma PostgresProviderAuthConfig_new_Return extra kw cfg :
  PostgresProviderAuthConfig_new extra kw = Return cfg ->
  kw !! "username" = Some (PStr (username cfg)) /\
  kw !! "password" = Some (PStr (password cfg)) /\
  kw !! "host" = Some (PStr (host cfg)) /\
  (exists d, kw !! "database" = Some d /\ validate_optional_str d = Return (database cfg)) /\
  match kw !! "port" with
  | Some v => validate_optional_str v = Return (port cfg)
  | None => port cfg = Some "5432"
  end.
Proof.
  unfold PostgresProviderAuthConfig_new.
  destruct (match extra with ExtraIgnore => _ | ExtraForbid => _ end); [discriminate|].
  destruct (kw !! "username") as [[|u]|]; try discriminate;
  destruct (kw !! "password") as [[|p]|]; try discriminate;
  destruct (kw !! "host") as [[|h]|]; try discriminate;
  destruct (kw !! "database") as [d|]; try discriminate.
  cbn [validate_str obind].
  destruct (validate_optional_str d) as [d'|] eqn:Hd; [|discriminate].
  cbn [obind].
  destruct (kw !! "port") as [v|].
  - destruct (validate_optional_str v) as [port'|] eqn:Hv; [|discriminate].
    cbn [obind]. intros [= <-]. cbn. eauto 10.
  - cbn [obind]. intros [= <-]. cbn. eauto 10.
Qed.

(** A required argument that is missing makes the constructor fail. *)
Lemma PostgresProviderAuthConfig_new_missing extra kw :
  kw !! "username" = None \/ kw !! "password" = None \/ kw !! "host" = None
  \/ kw !! "database" = None ->
  PostgresProviderAuthConfig_new extra kw = Raise TypeError.
Proof.
  intros H. unfold PostgresProviderAuthConfig_new.
  destruct (match extra with ExtraIgnore => _ | ExtraForbid => _ end); [reflexivity|].
  destruct (kw !! "username"), (kw !! "password"), (kw !! "host"),
    (kw !! "database"); try reflexivity.
  destruct H as [H|[H|[H|H]]]; discriminate.
Qed.

(** C6.  A configuration mapping that lacks one of the required keys
    [username], [password], [host] makes [validate_config] fail with a
    configuration error.  The failure leaves the whole state as it was: the
    stored configuration is not replaced, and the driver is not called (the
    world, its clock included, is unchanged), so the error surfaces before
    any network activity. *)
Theorem validate_config_missing_required extra st :
  config_authentication (self st) !! "username" = None \/
  config_authentication (self st) !! "password" = None \/
  config_authentication (self st) !! "host" = None ->
  exists e, ConfigError e /\ validate_config extra st = (Raise e, st).
Proof.
  intros H. exists TypeError. split; [left; reflexivity|].
  rewrite validate_config_eq, PostgresProviderAuthConfig_new_missing; [reflexivity|].
  tauto.
Qed.

Lemma validate_config_missing_required_witness :
  let st := State (new_provider {[ "username" := PStr "u"; "host" := PStr "h";
                                    "database" := PStr "d" ]}) empty_world in
  (config_authentication (self st) !! "username" = None \/
   config_authentication (self st) !! "password" = None \/
   config_authentication (self st) !! "host" = None) /\
  exists e, ConfigError e /\ validate_config ExtraIgnore st = (Raise e, st).
Proof.
  intros st.
  assert (H : config_authentication (self st) !! "username" = None \/
              config_authentication (self st) !! "password" = None \/
              config_authentication (self st) !! "host" = None)
    by (right; left; vm_compute; reflexivity).
  split; [exact H|].
  exact (validate_config_missing_required ExtraIgnore st H).
Defined.

(** C9.  When validation succeeds on a mapping without the key [port], the
    port of the stored authentication configuration is the string
    ["5432"]. *)
Theorem validate_config_default_port extra st st' :
  validate_config extra st = (Return tt, st') ->
  config_authentication (self st) !! "port" = None ->
  exists cfg,
    authentication_config (self st') = Some cfg /\ port cfg = Some "5432".
Proof.
  rewrite validate_config_eq.
  destruct (PostgresProviderAuthConfig_new _ _) as [cfg|] eqn:Hnew; [|discriminate].
  intros [= <-] Hport. exists cfg. split; [reflexivity|].
  apply PostgresProviderAuthConfig_new_Return in Hnew.
  destruct Hnew as (_ & _ & _ & _ & Hp). rewrite Hport in Hp. exact Hp.
Qed.

Lemma validate_config_default_port_witness :
  validate_config ExtraForbid sample_state = (Return tt, configured_state) /\
  config_authentication (self sample_state) !! "port" = None /\
  exists cfg,
    authentication_config (self configured_state) = Some cfg /\
    port cfg = Some "5432".
Proof.
  assert (H1 : validate_config ExtraForbid sample_state = (Return tt, configured_state))
    by (vm_compute; reflexivity).
  assert (H2 : config_authentication (self sample_state) !! "port" = None)
    by (vm_compute; reflexivity).
  split; [exact H1|]. split; [exact H2|].
  exact (validate_config_default_port ExtraForbid sample_state configured_state H1 H2).
Defined.

(** ** Empty required fields *)

(** C3, as stated, does not hold: a mapping whose [username] is the empty
    string passes validation. *)
Lemma empty_required_field_accepted :
  ~ (forall extra st,
       config_authentication (self st) !! "username" = Some (PStr "") \/
       config_authentication (self st) !! "password" = Some (PStr "") \/
       config_authentication (self st) !! "host" = Some (PStr "") ->
       exists e st', validate_config extra st = (Raise e, st')).
Proof.
  intros H.
  destruct (H ExtraForbid (State (new_provider empty_username_authentication) empty_world))
    as (e & st' & He).
  - left. vm_compute. reflexivity.
  - vm_compute in He. discriminate He.
Qed.

(** C3, amended.  When validation succeeds, each of the required fields
    [username], [password] and [host] is present in the mapping with a
    string value ([None] is rejected), and that string -- which may be
    empty -- is stored unchanged in the authentication configuration. *)
Theorem validate_config_required_present extra st st' :
  validate_config extra st = (Return tt, st') ->
  exists cfg,
    authentication_config (self st') = Some cfg /\
    config_authentication (self st) !! "username" = Some (PStr (username cfg)) /\
    config_authentication (self st) !! "password" = Some (PStr (password cfg)) /\
    config_authentication (self st) !! "host" = Some (PStr (host cfg)).
Proof.
  rewrite validate_config_eq.
  destruct (PostgresProviderAuthConfig_new _ _) as [cfg|] eqn:Hnew; [|discriminate].
  intros [= <-]. exists cfg. split; [reflexivity|].
  apply PostgresProviderAuthConfig_new_Return in Hnew. tauto.
Qed.

Lemma validate_config_required_present_witness :
  validate_config ExtraForbid empty_username_state
    = (Return tt, empty_username_configured) /\
  exists cfg,
    authentication_config (self empty_username_configured) = Some cfg /\
    config_authentication (self empty_username_state) !! "username"
      = Some (PStr (username cfg)) /\
    config_authentication (self empty_username_state) !! "password"
      = Some (PStr (password cfg)) /\
    config_authentication (self empty_username_state) !! "host"
      = Some (PStr (host cfg)).
Proof.
  assert (H : validate_config ExtraForbid empty_username_state
              = (Return tt, empty_username_configured))
    by (vm_compute; reflexivity).
  split; [exact H|].
  exact (validate_config_required_present ExtraForbid _ _ H).
Defined.

(** ** The [database] key *)

(** C4.  The field [database] carries the metadata [required: False] and
    the type [str | None], yet it is declared without a default (unlike
    [port]): leaving the key out makes the constructor fail for want of a
    required argument, where the claim expects a configuration whose
    database is [None]. *)
Theorem validate_config_database_omitted extra w :
  validate_config extra (State (new_provider no_database_authentication) w)
  = (Raise TypeError, State (new_provider no_database_authentication) w).
Proof.
  rewrite validate_config_eq, PostgresProviderAuthConfig_new_missing; [reflexivity|].
  do 3 right. vm_compute. reflexivity.
Qed.

(** The same mapping with [database] given as [None] (what the module's
    own entry point passes when the environment variable is unset) is
    accepted, and the database of the result is [None]. *)
Example validate_config_database_None :
  PostgresProviderAuthConfig_new ExtraForbid
    (<["database" := PNone]> no_database_authentication)
  = Return (AuthConfig "u" "p" "localhost" None (Some "5432")).
Proof. vm_compute. reflexivity. Qed.

(** * The precondition on the SQL string *)

Lemma query_missing_falsy kwargs :
  query_missing kwargs <-> truthy (dict_get kwargs "query") = false.
Proof.
  unfold query_missing, dict_get. split.
  - intros [H|[H|H]]; rewrite H; reflexivity.
  - destruct (kwargs !! "query") as [[|[|a s]]|]; cbn; auto; discriminate.
Qed.

Lemma query_rejected srv kwargs st :
  truthy (dict_get kwargs "query") = false ->
  query srv kwargs st = (Raise (ValueError "Query is required"), st).
Proof. intros H. unfold query. rewrite H. reflexivity. Qed.

Lemma notify_rejected srv kwargs st :
  truthy (dict_get kwargs "query") = false ->
  notify srv kwargs st = (Raise (ValueError "Query is required"), st).
Proof. intros H. unfold notify. rewrite H. reflexivity. Qed.

(** C2.  When the argument [query] is absent or empty, [query] and
    [notify] raise [ValueError], and the driver world after the call is the
    world before it: no connection object was created and the driver was
    not called at all (its clock did not move). *)
Theorem missing_query_no_network srv kwargs st :
  query_missing kwargs ->
  (fst (query srv kwargs st) = Raise (ValueError "Query is required") /\
   db (snd (query srv kwargs st)) = db st) /\
  (fst (notify srv kwargs st) = Raise (ValueError "Query is required") /\
   db (snd (notify srv kwargs st)) = db st).
Proof.
  intros H. apply query_missing_falsy in H.
  rewrite query_rejected, notify_rejected by exact H. cbn. auto.
Qed.

Lemma missing_query_no_network_witness :
  query_missing (∅ : gmap string pyval) /\
  (fst (query (quiet_server []) ∅ configured_state)
     = Raise (ValueError "Query is required") /\
   db (snd (query (quiet_server []) ∅ configured_state)) = db configured_state) /\
  (fst (notify (quiet_server []) ∅ configured_state)
     = Raise (ValueError "Query is required") /\
   db (snd (notify (quiet_server []) ∅ configured_state)) = db configured_state).
Proof.
  assert (H : query_missing (∅ : gmap string pyval)) by (left; reflexivity).
  split; [exact H|].
  exact (missing_query_no_network (quiet_server []) ∅ configured_state H).
Defined.

(** C10.  When the precondition check of [query] or [notify] fails, the
    provider instance after the call is the instance before it; in
    particular [self.conn] holds what it held. *)
Theorem missing_query_keeps_conn srv kwargs st :
  query_missing kwargs ->
  (self (snd (query srv kwargs st)) = self st /\
   conn (self (snd (query srv kwargs st))) = conn (self st)) /\
  (self (snd (notify srv kwargs st)) = self st /\
   conn (self (snd (notify srv kwargs st))) = conn (self st)).
Proof.
  intros H. apply query_missing_falsy in H.
  rewrite query_rejected, notify_rejected by exact H. cbn. auto.
Qed.

Lemma missing_query_keeps_conn_witness :
  query_missing empty_query /\
  (self (snd (query (quiet_server []) empty_query configured_state))
     = self configured_state /\
   conn (self (snd (query (quiet_server []) empty_query configured_state)))
     = conn (self configured_state)) /\
  (self (snd (notify (quiet_server []) empty_query configured_state))
     = self configured_state /\
   conn (self (snd (notify (quiet_server []) empty_query configured_state)))
     = conn (self configured_state)).
Proof.
  assert (H : query_missing empty_query) by (right; right; vm_compute; reflexivity).
  split; [exact H|].
  exact (missing_query_keeps_conn (quiet_server []) empty_query configured_state H).
Defined.

(** * Updating objects in the store *)

Lemma length_update {A} i (f : A -> A) l : length (update i f l) = length l.
Proof. unfold update. destruct (l !! i); [apply length_insert|reflexivity]. Qed.

Lemma lookup_update_eq {A} i (f : A -> A) (l : list A) :
  update i f l !! i = f <$> l !! i.
Proof.
  unfold update. destruct (l !! i) as [x|] eqn:H.
  - cbn. apply list_lookup_insert_eq. eapply lookup_lt_Some, H.
  - rewrite H. reflexivity.
Qed.

Lemma lookup_update_ne {A} i j (f : A -> A) (l : list A) :
  i <> j -> update i f l !! j = l !! j.
Proof.
  intros Hne. unfold update. destruct (l !! i); [|reflexivity].
  apply list_lookup_insert_ne, Hne.
Qed.

Lemma lookup_update {A} i j (f : A -> A) (l : list A) :
  update i f l !! j = if decide (i = j) then f <$> l !! j else l !! j.
Proof.
  destruct (decide (i = j)) as [->|Hne];
    [apply lookup_update_eq|apply lookup_update_ne, Hne].
Qed.

Lemma lookup_snoc {A} (l : list A) x : (l ++ [x]) !! length l = Some x.
Proof. apply list_lookup_middle. reflexivity. Qed.

Lemma update_snoc {A} (f : A -> A) (l : list A) x :
  update (length l) f (l ++ [x]) = l ++ [f x].
Proof.
  unfold update. rewrite lookup_snoc.
  replace (length l) with (length l + 0) by lia.
  rewrite insert_app_r. reflexivity.
Qed.

(** * Disposal *)

Lemma is_open_closed l cs t h :
  is_open (World (update h close_connection l) cs t) h = false.
Proof.
  unfold is_open. cbn. rewrite lookup_update_eq.
  destruct (l !! h); reflexivity.
Qed.

(** C8.  [dispose] returns normally from every state.  This does not
    depend on what closing does: whatever exception the attempt to close
    raises -- the attribute error met when [self.conn] is [None], or a
    failure of the [close] method itself -- it is caught and one message is
    logged.  With psycopg2's [close]: when [self.conn] is [None] the message
    is logged and nothing else changes; when it is a connection, that
    connection is closed and nothing is logged. *)
Theorem dispose_never_raises (close : nat -> M unit) st :
  fst (dispose_with close st) = Return tt /\
  (forall e st1,
     self_conn_close close st = (Raise e, st1) ->
     snd (dispose_with close st)
     = set_self (Provider (config_authentication (self st1))
                          (authentication_config (self st1)) (conn (self st1))
                          (logger (self st1) ++ ["Error closing Postgres connection"]))
         st1) /\
  fst (dispose st) = Return tt /\
  match conn (self st) with
  | None =>
      logger (self (snd (dispose st)))
        = logger (self st) ++ ["Error closing Postgres connection"]
      /\ db (snd (dispose st)) = db st
  | Some h =>
      logger (self (snd (dispose st))) = logger (self st)
      /\ is_open (db (snd (dispose st))) h = false
  end.
Proof.
  split; [|split; [|split]].
  - unfold dispose_with, try_except.
    destruct (self_conn_close close st) as [[[]|e] st1]; reflexivity.
  - intros e st1 H. unfold dispose_with, try_except. rewrite H. reflexivity.
  - unfold dispose, dispose_with, try_except.
    destruct (self_conn_close connection_close st) as [[[]|e] st1]; reflexivity.
  - destruct st as [p w].
    unfold dispose, dispose_with, try_except, self_conn_close, bind, get_self.
    cbn. destruct (conn p) as [h|]; cbn.
    + split; [reflexivity|]. apply is_open_closed.
    + auto.
Qed.

(** A [close] that fails: the exception does not leave [dispose]. *)
Example dispose_failing_close :
  dispose_with (fun _ => raise OperationalError)
    (State (Provider ∅ None (Some 0) []) (World [new_connection] [] 1))
  = (Return tt,
     State (Provider ∅ None (Some 0) ["Error closing Postgres connection"])
           (World [new_connection] [] 1)).
Proof. reflexivity. Qed.

Example dispose_fresh_provider :
  dispose (State (new_provider ∅) empty_world)
  = (Return tt,
     State (Provider ∅ None None ["Error closing Postgres connection"]) empty_world).
Proof. reflexivity. Qed.

(** * Properties that hold along every path *)

Section Respects.

Context (R : relation state) `{!PreOrder R}.

Lemma respects_ret {A} (a : A) : respects R (ret a).
Proof. intros st. reflexivity. Qed.

Lemma respects_raise {A} e : respects R (@raise A e).
Proof. intros st. reflexivity. Qed.

Lemma respects_get_db : respects R get_db.
Proof. intros st. reflexivity. Qed.

Lemma respects_bind {A B} (m : M A) (k : A -> M B) :
  respects R m -> (forall a, respects R (k a)) -> respects R (bind m k).
Proof.
  intros Hm Hk st. unfold bind. specialize (Hm st).
  destruct (m st) as [[a|e] st1]; cbn in *; [|exact Hm].
  transitivity st1; [exact Hm|apply Hk].
Qed.

Lemma respects_try_finally {A} (body : M A) (fin : M unit) :
  respects R body -> respects R fin -> respects R (try_finally body fin).
Proof.
  intros Hb Hf st. unfold try_finally. specialize (Hb st).
  destruct (body st) as [r st1]. specialize (Hf st1).
  destruct (fin st1) as [[[]|e] st2]; cbn in *; transitivity st1; assumption.
Qed.

Lemma respects_if {A} (b : bool) (m1 m2 : M A) :
  respects R m1 -> respects R m2 -> respects R (if b then m1 else m2).
Proof. destruct b; auto. Qed.

End Respects.

(** ** Connections stay put *)

#[local] Instance steady_preorder : PreOrder steady.
Proof.
  split.
  - intros st. split; auto.
  - intros st1 st2 st3 [Hs1 Hl1 Hc1] [Hs2 Hl2 Hc2]. split.
    + congruence.
    + congruence.
    + auto.
Qed.

Lemma closed_at_update f l h h' :
  (forall c, closed c = true -> closed (f c) = true) ->
  closed_at l h' = true -> closed_at (update h f l) h' = true.
Proof.
  intros Hf. unfold closed_at. rewrite lookup_update.
  destruct (decide (h = h')), (l !! h'); cbn; auto.
Qed.

Lemma closed_at_close l h :
  h < length l -> closed_at (update h close_connection l) h = true.
Proof.
  intros Hlt. unfold closed_at. rewrite lookup_update_eq.
  destruct (lookup_lt_is_Some_2 l h Hlt) as [c ->]. reflexivity.
Qed.

Lemma closed_at_lt l h : closed_at l h = true -> h < length l.
Proof.
  unfold closed_at. destruct (l !! h) eqn:H; [|discriminate].
  intros _. eapply lookup_lt_Some, H.
Qed.

Lemma closed_at_app l l' h :
  closed_at l h = true -> closed_at (l ++ l') h = true.
Proof.
  intros H. unfold closed_at in *.
  rewrite lookup_app_l by (apply closed_at_lt, H). exact H.
Qed.

(** Each driver primitive is handled by running it on an arbitrary state. *)
Ltac steady_prim :=
  intros [? [? ? ?]];
  cbv [bind get_db put_db ret raise driver_call set_db]; cbn;
  repeat (case_match; simplify_eq; cbn);
  split; cbn; rewrite ?length_update; auto using closed_at_update.

Section SteadyDriver.

Variable srv : server.

Lemma steady_connection_close h : respects steady (connection_close h).
Proof. unfold connection_close. steady_prim. Qed.

Lemma steady_cursor_close c : respects steady (cursor_close c).
Proof. unfold cursor_close. steady_prim. Qed.

Lemma steady_connection_cursor h : respects steady (connection_cursor srv h).
Proof. unfold connection_cursor. steady_prim. Qed.

Lemma steady_cursor_execute c q : respects steady (cursor_execute srv c q).
Proof. unfold cursor_execute. destruct q; steady_prim. Qed.

Lemma steady_cursor_fetchall c : respects steady (cursor_fetchall srv c).
Proof. unfold cursor_fetchall. steady_prim. Qed.

Lemma steady_connection_commit h : respects steady (connection_commit srv h).
Proof. unfold connection_commit. steady_prim. Qed.

Lemma steady_with_ {A} (cm : M nat) (body : nat -> M A) :
  respects steady cm -> (forall c, respects steady (body c)) ->
  respects steady (with_ cm body).
Proof.
  intros Hcm Hbody. unfold with_.
  apply respects_bind; [apply _|exact Hcm|intros c].
  apply respects_try_finally; [apply _|apply Hbody|apply steady_cursor_close].
Qed.

End SteadyDriver.

(** ** Opening and releasing the connection *)

Lemma init_connection_spec srv st :
  match __init_connection srv st with
  | (Return h, st1) =>
      h = length (connections (db st)) /\
      connections (db st1) = connections (db st) ++ [new_connection] /\
      conn (self st1) = Some h
  | (Raise _, st1) =>
      self st1 = self st /\ connections (db st1) = connections (db st)
  end.
Proof.
  destruct st as [p [l cs t]].
  cbv [__init_connection psycopg2_connect driver_call bind get_self get_db
       put_self put_db ret raise set_self set_db]; cbn.
  destruct (authentication_config p) as [cfg|]; cbn; [|auto].
  destruct (fault srv t); cbn; [auto|].
  destruct (accepts srv _ _ _ _ _); cbn; auto.
Qed.

Lemma released_refl st : released st st.
Proof. split; auto with lia. Qed.

(** The shape shared by [query] and [notify]: open a connection, run a body
    that opens no other, and close the connection in a [finally] clause. *)
Lemma call_released srv {A} (body : nat -> M A) :
  (forall c, respects steady (body c)) ->
  forall st,
    released st
      (snd ((c <- __init_connection srv ;;
             try_finally (body c) (connection_close c)) st)).
Proof.
  intros Hb st. unfold bind.
  pose proof (init_connection_spec srv st) as Hi.
  destruct (__init_connection srv st) as [[h|e] st1]; cbn.
  - destruct Hi as (-> & Hc & Hconn).
    unfold try_finally. specialize (Hb (length (connections (db st))) st1).
    destruct (body _ st1) as [r st2]. cbn in Hb. destruct Hb as [Hs Hl Hcl].
    cbv [connection_close bind get_db put_db set_db]; cbn.
    assert (Hlen : length (connections (db st2)) = S (length (connections (db st))))
      by (rewrite Hl, Hc, length_app; cbn; lia).
    split; cbn; rewrite ?length_update.
    + lia.
    + intros h' H1 H2. assert (h' = length (connections (db st))) as -> by lia.
      apply closed_at_close. lia.
    + intros h' H. apply closed_at_update; [reflexivity|].
      apply Hcl. rewrite Hc. apply closed_at_app, H.
    + right. exists (length (connections (db st))). split; [congruence|].
      apply closed_at_close. lia.
  - destruct Hi as [Hs Hc]. split; rewrite ?Hs, ?Hc; auto with lia.
Qed.

Lemma query_released srv kwargs st : released st (snd (query srv kwargs st)).
Proof.
  unfold query. destruct (negb _); [apply released_refl|].
  apply call_released. intros c.
  apply respects_bind; [apply _| |intros rs; apply respects_ret, _].
  apply steady_with_; [apply steady_connection_cursor|intros _].
  apply respects_bind; [apply _|apply steady_connection_cursor|intros cur].
  apply respects_bind; [apply _|apply steady_cursor_execute|intros _].
  apply respects_bind; [apply _|apply steady_cursor_fetchall|intros rs].
  apply respects_bind; [apply _|apply steady_cursor_close|intros _].
  apply respects_bind; [apply _|apply steady_connection_close|intros _].
  apply respects_ret, _.
Qed.

Lemma notify_released srv kwargs st : released st (snd (notify srv kwargs st)).
Proof.
  unfold notify. destruct (negb _); [apply released_refl|].
  apply call_released. intros c.
  apply steady_with_; [apply steady_connection_cursor|intros _].
  apply respects_bind; [apply _|apply steady_connection_cursor|intros cur].
  apply respects_bind; [apply _|apply steady_cursor_execute|intros _].
  apply respects_bind; [apply _|apply steady_cursor_close|intros _].
  apply respects_bind; [apply _|apply steady_connection_commit|intros _].
  apply steady_connection_close.
Qed.

(** C1.  After a call to [query] or [notify] -- whether it returned or
    raised, and whatever failure the driver met on the way -- every
    connection the call opened is closed; it opened at most one; and the
    handle in [self.conn], if the call replaced it, names a closed
    connection.  (A call stopped by the precondition opens nothing, so the
    statement holds for it too.) *)
Theorem connection_released srv kwargs st :
  released st (snd (query srv kwargs st)) /\
  released st (snd (notify srv kwargs st)).
Proof. split; [apply query_released|apply notify_released]. Qed.

Lemma released_all_closed st st' :
  released st st' -> all_closed st -> all_closed st'.
Proof.
  intros [_ Hnew Hold _] Hall h Hh.
  destruct (decide (h < length (connections (db st)))) as [Hlt|Hge].
  - apply Hold, Hall, Hlt.
  - apply Hnew; [lia|exact Hh].
Qed.

(** No connection is open between calls: if every connection in the store
    is closed before a call, every connection is closed after it. *)
Corollary all_closed_after_call srv kwargs st :
  all_closed st ->
  all_closed (snd (query srv kwargs st)) /\
  all_closed (snd (notify srv kwargs st)).
Proof.
  intros H. split; eapply released_all_closed; eauto using query_released, notify_released.
Qed.

(** * Running a call *)

Ltac exec_unfold :=
  progress unfold query, notify, __init_connection, psycopg2_connect, driver_call,
    connection_cursor, cursor_execute, cursor_fetchall, cursor_close,
    connection_commit, connection_close, with_, try_finally,
    bind, get_self, get_db, put_self, put_db, ret, raise, lift,
    set_self, set_db, is_open, cursor_usable.

Ltac exec_known :=
  match goal with
  | H : ?x = _ |- context [match ?x with _ => _ end] => rewrite H
  end.

Ltac exec :=
  repeat first
    [ rewrite lookup_snoc
    | rewrite update_snoc
    | exec_known
    | progress cbn
    | exec_unfold ].

Ltac exec_case :=
  match goal with
  | |- context [authentication_config ?p] => destruct (authentication_config p) eqn:?
  | |- context [fault ?s ?t] => destruct (fault s t) eqn:?
  | |- context [accepts ?s ?d ?u ?p ?h ?n] => destruct (accepts s d u p h n) eqn:?
  | |- context [result_set ?s ?t ?q] => destruct (result_set s t q) eqn:?
  end.

Ltac exec_cases :=
  repeat first
    [ rewrite lookup_snoc
    | rewrite update_snoc
    | exec_known
    | progress cbn
    | exec_unfold
    | discriminate
    | exec_case ].


Lemma truthy_PStr v :
  truthy v = true <-> exists q, v = PStr q /\ q <> "".
Proof.
  split.
  - destruct v as [|[|a s]]; try discriminate. intros _.
    eexists. split; [reflexivity|discriminate].
  - intros (q & -> & Hq). destruct q; [congruence|reflexivity].
Qed.

Lemma no_fault_5 srv t :
  (forall i, i < 5 -> fault srv (i + t) = None) <->
  fault srv t = None /\ fault srv (S t) = None /\ fault srv (S (S t)) = None /\
  fault srv (S (S (S t))) = None /\ fault srv (S (S (S (S t)))) = None.
Proof.
  split.
  - intros H. repeat split; [apply (H 0)|apply (H 1)|apply (H 2)|apply (H 3)|apply (H 4)]; lia.
  - intros (H0 & H1 & H2 & H3 & H4) i Hi.
    destruct i as [|[|[|[|[|i]]]]]; cbn; auto. lia.
Qed.

Section Runs.

Variable srv : server.
Variable kwargs : gmap string pyval.
Variables (p : PostgresProvider) (l : list connection) (cs : list cursor) (t : nat).

(** When nothing fails, [query] returns the rows the server produced for
    the statement. *)
Lemma query_run q cfg rows :
  dict_get kwargs "query" = PStr q -> q <> "" ->
  authentication_config p = Some cfg ->
  accepts srv (database cfg) (username cfg) (password cfg) (host cfg) (port cfg)
    = true ->
  (forall i, i < 5 -> fault srv (i + t) = None) ->
  result_set srv (3 + t) q = Some rows ->
  fst (query srv kwargs (State p (World l cs t))) = Return rows.
Proof.
  intros Hq Hne Hcfg Hacc Hf Hrows.
  apply no_fault_5 in Hf. destruct Hf as (F0 & F1 & F2 & F3 & F4).
  cbn in Hrows.
  assert (Ht : truthy (PStr q) = true) by (apply truthy_PStr; eauto).
  unfold query. rewrite Hq, Ht.
  exec. reflexivity.
Qed.

(** When [query] returns, nothing failed, and what it returns is the
    result set of the statement. *)
Lemma query_Return_inv rows st' :
  query srv kwargs (State p (World l cs t)) = (Return rows, st') ->
  exists q cfg,
    dict_get kwargs "query" = PStr q /\ q <> "" /\
    authentication_config p = Some cfg /\
    accepts srv (database cfg) (username cfg) (password cfg) (host cfg) (port cfg)
      = true /\
    (forall i, i < 5 -> fault srv (i + t) = None) /\
    result_set srv (3 + t) q = Some rows.
Proof.
  unfold query.
  destruct (dict_get kwargs "query") as [|q] eqn:Hq; [discriminate|].
  destruct q as [|a q]; [discriminate|]. cbn [truthy negb].
  exec_cases.
  intros [= <- <-]. eexists _, _.
  rewrite no_fault_5. repeat split; eauto.
Qed.

(** When [notify] returns, nothing failed; the call added one connection
    object to the store, on which the statement was executed and
    committed, once, before the connection was closed. *)
Lemma notify_Return_inv st' :
  notify srv kwargs (State p (World l cs t)) = (Return tt, st') ->
  exists q cfg,
    dict_get kwargs "query" = PStr q /\ q <> "" /\
    authentication_config p = Some cfg /\
    accepts srv (database cfg) (username cfg) (password cfg) (host cfg) (port cfg)
      = true /\
    (forall i, i < 5 -> fault srv (i + t) = None) /\
    conn (self st') = Some (length l) /\
    connections (db st') = l ++ [Connection true [] [q] 1].
Proof.
  unfold notify.
  destruct (dict_get kwargs "query") as [|q] eqn:Hq; [discriminate|].
  destruct q as [|a q]; [discriminate|]. cbn [truthy negb].
  exec_cases.
  all: intros [= <-]; eexists _, _; rewrite no_fault_5; cbn;
    repeat split; eauto; discriminate.
Qed.

Lemma notify_run q cfg :
  dict_get kwargs "query" = PStr q -> q <> "" ->
  authentication_config p = Some cfg ->
  accepts srv (database cfg) (username cfg) (password cfg) (host cfg) (port cfg)
    = true ->
  (forall i, i < 5 -> fault srv (i + t) = None) ->
  fst (notify srv kwargs (State p (World l cs t))) = Return tt.
Proof.
  intros Hq Hne Hcfg Hacc Hf.
  apply no_fault_5 in Hf. destruct Hf as (F0 & F1 & F2 & F3 & F4).
  assert (Ht : truthy (PStr q) = true) by (apply truthy_PStr; eauto).
  unfold notify. rewrite Hq, Ht.
  exec. reflexivity.
Qed.

(** [query] never commits: the only connection object it may add to the
    store ends with no commit and nothing committed, and the other
    connections are as they were. *)
Lemma query_no_commit :
  let l' := connections (db (snd (query srv kwargs (State p (World l cs t))))) in
  l' = l \/
  exists c, l' = l ++ [c] /\ closed c = true /\ commits c = 0 /\ committed c = [].
Proof.
  unfold query.
  destruct (negb (truthy (dict_get kwargs "query"))); [left; reflexivity|].
  destruct (dict_get kwargs "query") as [|q].
  all: exec_cases.
  all: first [left; reflexivity | right; eexists; split; [reflexivity|cbn; auto]].
Qed.

End Runs.

(** * What [query] returns *)

(** C7.  For a non-empty SQL string [q]: when the connection is made and no
    driver call fails, [query] returns the result set of [q] exactly --
    every row, in the server's order, each row with its columns as the
    server sent them, whatever the number of rows (none included); and
    whenever [query] returns at all, what it returns is that result set. *)
Theorem query_returns_result_set srv kwargs st q :
  dict_get kwargs "query" = PStr q -> q <> "" ->
  (forall cfg rows,
     authentication_config (self st) = Some cfg ->
     accepts srv (database cfg) (username cfg) (password cfg) (host cfg) (port cfg)
       = true ->
     (forall i, i < 5 -> fault srv (i + clock (db st)) = None) ->
     result_set srv (3 + clock (db st)) q = Some rows ->
     fst (query srv kwargs st) = Return rows) /\
  (forall rows st',
     query srv kwargs st = (Return rows, st') ->
     result_set srv (3 + clock (db st)) q = Some rows).
Proof.
  intros Hq Hne. destruct st as [p [l cs t]]. cbn [self db clock]. split.
  - intros cfg rows. apply query_run; assumption.
  - intros rows st' H. apply query_Return_inv in H.
    destruct H as (q' & cfg & Hq' & _ & _ & _ & _ & Hrows). congruence.
Qed.

Lemma query_returns_result_set_witness :
  dict_get select_1 "query" = PStr "select 1" /\
  "select 1" <> "" /\
  fst (query (quiet_server [[SqlInt 1]]) select_1 configured_state)
    = Return [[SqlInt 1]] /\
  result_set (quiet_server [[SqlInt 1]]) (3 + clock (db configured_state))
    "select 1" = Some [[SqlInt 1]].
Proof.
  assert (H1 : dict_get select_1 "query" = PStr "select 1") by (vm_compute; reflexivity).
  assert (H2 : "select 1" <> "") by discriminate.
  destruct (query_returns_result_set (quiet_server [[SqlInt 1]]) select_1
              configured_state "select 1" H1 H2) as [Hrun Hinv].
  split; [exact H1|]. split; [exact H2|]. split.
  - apply (Hrun sample_config [[SqlInt 1]]);
      [reflexivity|reflexivity|intros i Hi; reflexivity|reflexivity].
  - apply (Hinv [[SqlInt 1]]
             (snd (query (quiet_server [[SqlInt 1]]) select_1 configured_state))).
    vm_compute. reflexivity.
Defined.

(** The rows come back in the order of the result set, and an empty result
    set gives the empty list. *)
Example query_keeps_order :
  fst (query (quiet_server [[SqlInt 2; SqlText "b"]; [SqlInt 1; SqlText "a"];
                            [SqlInt 2; SqlText "b"]])
         select_1 configured_state)
  = Return [[SqlInt 2; SqlText "b"]; [SqlInt 1; SqlText "a"]; [SqlInt 2; SqlText "b"]].
Proof. vm_compute. reflexivity. Qed.

Example query_empty_result :
  fst (query (quiet_server []) select_1 configured_state) = Return [].
Proof. vm_compute. reflexivity. Qed.

(** A statement without a result set makes [query] fail when it fetches;
    the connection is closed all the same. *)
Example query_no_result_set :
  query (Server (fun _ _ _ _ _ => true) (fun _ => None) (fun _ _ => None))
    select_1 configured_state
  = (Raise ProgrammingError,
     State (Provider sample_authentication (Some sample_config) (Some 0) [])
           (World [Connection true [] [] 0]
                  [Cursor 0 true None; Cursor 0 false None] 5)).
Proof. vm_compute. reflexivity. Qed.

(** * [notify] commits, [query] does not *)

(** C5.  For a non-empty SQL string: a call to [notify] that succeeds
    returns no value, and it has added exactly one connection to the store,
    on which the statement was executed and committed by exactly one
    commit before the connection was closed; a call to [query], however it
    ends, commits nothing -- the connection it may have added carries no
    commit and no committed statement -- and in both cases the other
    connections are untouched. *)
Theorem notify_commits_query_does_not srv kwargs st :
  truthy (dict_get kwargs "query") = true ->
  (forall v st',
     notify srv kwargs st = (Return v, st') ->
     v = tt /\
     exists q c,
       dict_get kwargs "query" = PStr q /\
       conn (self st') = Some (length (connections (db st))) /\
       connections (db st') = connections (db st) ++ [c] /\
       commits c = 1 /\ committed c = [q] /\ closed c = true) /\
  (let l' := connections (db (snd (query srv kwargs st))) in
   l' = connections (db st) \/
   exists c, l' = connections (db st) ++ [c] /\
             closed c = true /\ commits c = 0 /\ committed c = []).
Proof.
  intros _. destruct st as [p [l cs t]]. cbn [self db connections]. split.
  - intros [] st' H. split; [reflexivity|].
    apply notify_Return_inv in H.
    destruct H as (q & cfg & Hq & _ & _ & _ & _ & Hconn & Hl).
    exists q, (Connection true [] [q] 1). repeat split; assumption.
  - apply query_no_commit.
Qed.

Lemma notify_commits_query_does_not_witness :
  truthy (dict_get insert_1 "query") = true /\
  notify (quiet_server []) insert_1 configured_state = (Return tt, notified_state) /\
  exists q c,
    dict_get insert_1 "query" = PStr q /\
    conn (self notified_state) = Some (length (connections (db configured_state))) /\
    connections (db notified_state) = connections (db configured_state) ++ [c] /\
    commits c = 1 /\ committed c = [q] /\ closed c = true.
Proof.
  assert (H : truthy (dict_get insert_1 "query") = true) by (vm_compute; reflexivity).
  assert (Hrun : notify (quiet_server []) insert_1 configured_state
                 = (Return tt, notified_state)) by (vm_compute; reflexivity).
  destruct (notify_commits_query_does_not (quiet_server []) insert_1
              configured_state H) as (Hnotify & _).
  destruct (Hnotify tt notified_state Hrun) as [_ Hex].
  split; [exact H|]. split; [exact Hrun|]. exact Hex.
Defined.

(** The same statement given to [query]: executed, never committed. *)
Example query_insert :
  snd (query (quiet_server []) insert_1 configured_state)
  = State (Provider sample_authentication (Some sample_config) (Some 0) [])
          (World [Connection true [] [] 0]
                 [Cursor 0 true None; Cursor 0 true (Some [])] 5).
Proof. vm_compute. reflexivity. Qed.

(** A failure while the statement executes: the exception reaches the
    caller and the connection is closed. *)
Example notify_execution_error :
  notify (Server (fun _ _ _ _ _ => true)
                 (fun t => if Nat.eqb t 3 then Some DatabaseError else None)
                 (fun _ _ => None))
    insert_1 configured_state
  = (Raise DatabaseError,
     State (Provider sample_authentication (Some sample_config) (Some 0) [])
           (World [Connection true [] [] 0]
                  [Cursor 0 true None; Cursor 0 false None] 4)).
Proof. vm_compute. reflexivity. Qed.

(** Before validation has stored an authentication configuration, a call
    fails without reaching the driver. *)
Example query_unconfigured :
  query (quiet_server []) select_1 sample_state = (Raise AttributeError, sample_state).
Proof. vm_compute. reflexivity. Qed.

(** * Further properties of the code *)

(** ** Validation *)

(** The constructor succeeds exactly on the mappings that give the three
    required fields as strings and carry the key [database]. *)
Lemma PostgresProviderAuthConfig_new_accepts extra kw u p h d :
  (extra = ExtraForbid -> dom kw ⊆ field_names) ->
  kw !! "username" = Some (PStr u) ->
  kw !! "password" = Some (PStr p) ->
  kw !! "host" = Some (PStr h) ->
  kw !! "database" = Some d ->
  PostgresProviderAuthConfig_new extra kw
  = Return (AuthConfig u p h
              (match d with PStr s => Some s | PNone => None end)
              (match kw !! "port" with
               | None => Some "5432"
               | Some (PStr s) => Some s
               | Some PNone => None
               end)).
Proof.
  intros Hdom Hu Hp Hh Hd. unfold PostgresProviderAuthConfig_new.
  rewrite Hu, Hp, Hh, Hd.
  destruct extra.
  - cbn. destruct d as [|ds], (kw !! "port") as [[|s]|]; reflexivity.
  - rewrite bool_decide_eq_true_2 by auto. cbn.
    destruct d as [|ds], (kw !! "port") as [[|s]|]; reflexivity.
Qed.

(** X1.  A mapping that gives [username], [password] and [host] as strings
    and carries the key [database] (with a string or [None]) is accepted,
    and the stored configuration holds exactly the given values: a
    [database] of [None] stays [None]; [port] is ["5432"] when the key is
    absent, the given string when present, and [None] -- not the default --
    when it is given as [None]. *)
Theorem validate_config_accepts extra st u p h d :
  (extra = ExtraForbid -> dom (config_authentication (self st)) ⊆ field_names) ->
  config_authentication (self st) !! "username" = Some (PStr u) ->
  config_authentication (self st) !! "password" = Some (PStr p) ->
  config_authentication (self st) !! "host" = Some (PStr h) ->
  config_authentication (self st) !! "database" = Some d ->
  validate_config extra st
  = (Return tt,
     set_self
       (Provider (config_authentication (self st))
          (Some (AuthConfig u p h
                   (match d with PStr s => Some s | PNone => None end)
                   (match config_authentication (self st) !! "port" with
                    | None => Some "5432"
                    | Some (PStr s) => Some s
                    | Some PNone => None
                    end)))
          (conn (self st)) (logger (self st))) st).
Proof.
  intros Hdom Hu Hp Hh Hd.
  rewrite validate_config_eq.
  rewrite (PostgresProviderAuthConfig_new_accepts extra _ u p h d) by assumption.
  reflexivity.
Qed.

Lemma validate_config_accepts_witness :
  validate_config ExtraForbid (State (new_provider none_port_authentication) empty_world)
  = (Return tt,
     State (Provider none_port_authentication
              (Some (AuthConfig "u" "p" "localhost" None None)) None [])
           empty_world).
Proof.
  apply (validate_config_accepts ExtraForbid
           (State (new_provider none_port_authentication) empty_world)
           "u" "p" "localhost" PNone).
  - intros _. apply (bool_decide_unpack _). vm_compute. exact I.
  - vm_compute. reflexivity.
  - vm_compute. reflexivity.
  - vm_compute. reflexivity.
  - vm_compute. reflexivity.
Defined.

(** ** The entry point *)

Lemma main_authentication_lookup environ :
  main_authentication environ !! "username" = Some (environ_get environ "POSTGRES_USER") /\
  main_authentication environ !! "password" = Some (environ_get environ "POSTGRES_PASSWORD") /\
  main_authentication environ !! "host" = Some (environ_get environ "POSTGRES_HOST") /\
  main_authentication environ !! "database" = Some (environ_get environ "POSTGRES_DATABASE") /\
  main_authentication environ !! "port" = None.
Proof. unfold main_authentication. repeat split; by simplify_map_eq. Qed.

Lemma main_authentication_dom environ :
  dom (main_authentication environ) ⊆ field_names.
Proof.
  apply (bool_decide_unpack _). vm_compute. exact I.
Qed.

(** X2.  The mapping built by the entry point is accepted exactly when
    the environment variables [POSTGRES_USER], [POSTGRES_PASSWORD] and
    [POSTGRES_HOST] are set; the configuration then carries their values,
    the value of [POSTGRES_DATABASE] or [None] when that variable is unset,
    and the port ["5432"]. *)
Theorem main_authentication_accepted extra environ cfg :
  PostgresProviderAuthConfig_new extra (main_authentication environ) = Return cfg <->
  environ !! "POSTGRES_USER" = Some (username cfg) /\
  environ !! "POSTGRES_PASSWORD" = Some (password cfg) /\
  environ !! "POSTGRES_HOST" = Some (host cfg) /\
  environ !! "POSTGRES_DATABASE" = database cfg /\
  port cfg = Some "5432".
Proof.
  destruct (main_authentication_lookup environ) as (Hu & Hp & Hh & Hd & Hport).
  split.
  - intros H. apply PostgresProviderAuthConfig_new_Return in H.
    destruct H as (Hu' & Hp' & Hh' & (d & Hd' & Hvd) & Hport').
    rewrite Hu in Hu'. rewrite Hp in Hp'. rewrite Hh in Hh'.
    rewrite Hd in Hd'. rewrite Hport in Hport'.
    injection Hu' as Hu'. injection Hp' as Hp'. injection Hh' as Hh'.
    injection Hd' as <-.
    unfold environ_get in *.
    destruct (environ !! "POSTGRES_USER"); [|discriminate].
    destruct (environ !! "POSTGRES_PASSWORD"); [|discriminate].
    destruct (environ !! "POSTGRES_HOST"); [|discriminate].
    destruct (environ !! "POSTGRES_DATABASE"); cbn in Hvd;
      repeat split; congruence.
  - intros (Eu & Ep & Eh & Ed & Eport).
    rewrite (PostgresProviderAuthConfig_new_accepts extra _ (username cfg)
               (password cfg) (host cfg) (environ_get environ "POSTGRES_DATABASE")).
    + rewrite Hport. destruct cfg as [u p h d pt]. cbn in *. subst.
      unfold environ_get. destruct (environ !! "POSTGRES_DATABASE"); reflexivity.
    + intros _. apply main_authentication_dom.
    + rewrite Hu. unfold environ_get. rewrite Eu. reflexivity.
    + rewrite Hp. unfold environ_get. rewrite Ep. reflexivity.
    + rewrite Hh. unfold environ_get. rewrite Eh. reflexivity.
    + exact Hd.
Qed.

Example main_authentication_sample :
  PostgresProviderAuthConfig_new ExtraForbid (main_authentication sample_environ)
  = Return (AuthConfig "u" "p" "localhost" None (Some "5432")).
Proof. vm_compute. reflexivity. Qed.

Example main_authentication_no_user :
  PostgresProviderAuthConfig_new ExtraForbid (main_authentication ∅)
  = Raise ValidationError.
Proof. vm_compute. reflexivity. Qed.

(** ** The effect of a call on the stores *)

Lemma update_snoc2 {A} (f : A -> A) (l r : list A) x :
  update (length l) f ((l ++ [x]) ++ r) = (l ++ [f x]) ++ r.
Proof.
  unfold update.
  rewrite lookup_app_l by (rewrite length_app; cbn; lia).
  rewrite lookup_snoc.
  rewrite insert_app_l by (rewrite length_app; cbn; lia).
  replace (length l) with (length l + 0) at 1 by lia.
  rewrite insert_app_r. reflexivity.
Qed.

Section Effects.

Variable srv : server.
Variable kwargs : gmap string pyval.
Variables (p : PostgresProvider) (l : list connection) (cs : list cursor) (t : nat).

(** Either [query] raised before a connection was made, and then only the
    clock may have moved; or it made one connection, stored its handle and
    left it closed, with nothing pending and nothing committed. *)
Lemma query_effect :
  let r := query srv kwargs (State p (World l cs t)) in
  (self (snd r) = p /\ connections (db (snd r)) = l /\ cursors (db (snd r)) = cs
   /\ exists e, fst r = Raise e) \/
  (exists c,
     connections (db (snd r)) = l ++ [c] /\
     self (snd r) = Provider (config_authentication p) (authentication_config p)
                      (Some (length l)) (logger p) /\
     closed c = true /\ pending c = [] /\ commits c = 0 /\ committed c = []).
Proof.
  unfold query.
  destruct (negb (truthy (dict_get kwargs "query"))); [left; cbn; eauto 10|].
  destruct (dict_get kwargs "query") as [|q].
  all: exec_cases.
  all: simplify_eq.
  all: first [ left; repeat split; eauto; fail
             | right; eexists; repeat split; reflexivity ].
Qed.

(** The same for [notify]; the connection it made carries one commit and
    the statement when the call returned, none when it raised. *)
Lemma notify_effect :
  let r := notify srv kwargs (State p (World l cs t)) in
  (self (snd r) = p /\ connections (db (snd r)) = l /\ cursors (db (snd r)) = cs
   /\ exists e, fst r = Raise e) \/
  (exists c,
     connections (db (snd r)) = l ++ [c] /\
     self (snd r) = Provider (config_authentication p) (authentication_config p)
                      (Some (length l)) (logger p) /\
     closed c = true /\ pending c = [] /\
     ((fst r = Return tt /\ commits c = 1) \/
      (exists e, fst r = Raise e /\ commits c = 0 /\ committed c = []))).
Proof.
  unfold notify.
  destruct (negb (truthy (dict_get kwargs "query"))); [left; cbn; eauto 10|].
  destruct (dict_get kwargs "query") as [|q].
  all: exec_cases.
  all: simplify_eq.
  all: first [ left; repeat split; eauto; fail
             | right; eexists; split; [reflexivity|]; split; [reflexivity|];
               split; [reflexivity|]; split; [reflexivity|];
               first [ left; split; reflexivity
                     | right; eexists; repeat split; reflexivity ] ].
Qed.

Lemma query_Return_world rows st' :
  query srv kwargs (State p (World l cs t)) = (Return rows, st') ->
  conn (self st') = Some (length l) /\
  connections (db st') = l ++ [Connection true [] [] 0] /\
  cursors (db st') = cs ++ [Cursor (length l) true None; Cursor (length l) true (Some [])] /\
  clock (db st') = 5 + t.
Proof.
  unfold query.
  destruct (dict_get kwargs "query") as [|q] eqn:Hq; [discriminate|].
  destruct q as [|a q]; [discriminate|]. cbn [truthy negb].
  exec_cases.
  intros [= <- <-]. cbn. rewrite update_snoc2, <- app_assoc. cbn. auto.
Qed.

Lemma notify_Return_world st' :
  notify srv kwargs (State p (World l cs t)) = (Return tt, st') ->
  clock (db st') = 5 + t.
Proof.
  unfold notify.
  destruct (dict_get kwargs "query") as [|q] eqn:Hq; [discriminate|].
  destruct q as [|a q]; [discriminate|]. cbn [truthy negb].
  exec_cases.
  all: intros [= <-]; reflexivity.
Qed.

End Effects.

(** ** What a call leaves alone *)

(** X3.  Neither [query] nor [notify] touches a connection object that
    existed before the call: whatever the outcome, every such object is
    afterwards exactly what it was.  In particular [__init_connection]
    replaces the handle in [self.conn] without closing the connection it
    named. *)
Theorem prior_connections_untouched srv kwargs st h c :
  connections (db st) !! h = Some c ->
  connections (db (snd (query srv kwargs st))) !! h = Some c /\
  connections (db (snd (notify srv kwargs st))) !! h = Some c.
Proof.
  destruct st as [p [l cs t]]. cbn [db connections]. intros Hh. split.
  - destruct (query_effect srv kwargs p l cs t) as [(_ & -> & _)|(c' & -> & _)];
      [exact Hh|].
    apply lookup_app_l_Some, Hh.
  - destruct (notify_effect srv kwargs p l cs t) as [(_ & -> & _)|(c' & -> & _)];
      [exact Hh|].
    apply lookup_app_l_Some, Hh.
Qed.

Lemma prior_connections_untouched_witness :
  connections (db holding_state) !! 0 = Some new_connection /\
  connections (db (snd (query (quiet_server []) select_1 holding_state))) !! 0
    = Some new_connection /\
  connections (db (snd (notify (quiet_server []) select_1 holding_state))) !! 0
    = Some new_connection.
Proof.
  assert (H : connections (db holding_state) !! 0 = Some new_connection) by reflexivity.
  split; [exact H|].
  exact (prior_connections_untouched (quiet_server []) select_1 holding_state 0
           new_connection H).
Defined.

(** The handle that was held is lost while its connection is still open. *)
Example query_overwrites_handle :
  let st' := snd (query (quiet_server []) select_1 holding_state) in
  conn (self st') = Some 1 /\ is_open (db st') 0 = true /\ is_open (db st') 1 = false.
Proof. vm_compute. auto. Qed.

(** X4.  The outcome of [query] and of [notify] -- the value returned or
    the exception raised -- depends on the stored authentication
    configuration, the arguments and the behaviour of the server from the
    time of the call on, and on nothing else of the state: not on the
    handle in [self.conn], nor on the connections and cursors that exist,
    nor on what was logged. *)
Theorem call_outcome_stateless srv kwargs st1 st2 :
  authentication_config (self st1) = authentication_config (self st2) ->
  clock (db st1) = clock (db st2) ->
  fst (query srv kwargs st1) = fst (query srv kwargs st2) /\
  fst (notify srv kwargs st1) = fst (notify srv kwargs st2).
Proof.
  destruct st1 as [p1 [l1 cs1 t1]], st2 as [p2 [l2 cs2 t2]]. cbn.
  intros Ha <-. split.
  - unfold query.
    destruct (negb (truthy (dict_get kwargs "query"))); [reflexivity|].
    destruct (dict_get kwargs "query") as [|q]; rewrite ?Ha.
    all: exec_cases; reflexivity.
  - unfold notify.
    destruct (negb (truthy (dict_get kwargs "query"))); [reflexivity|].
    destruct (dict_get kwargs "query") as [|q]; rewrite ?Ha.
    all: exec_cases; reflexivity.
Qed.

Lemma call_outcome_stateless_witness :
  fst (query (quiet_server [[SqlInt 1]]) select_1 configured_state)
    = fst (query (quiet_server [[SqlInt 1]]) select_1
             (State (Provider ∅ (Some sample_config) (Some 0) ["earlier"])
                    (World [new_connection] [Cursor 0 false None] 0))) /\
  fst (notify (quiet_server [[SqlInt 1]]) select_1 configured_state)
    = fst (notify (quiet_server [[SqlInt 1]]) select_1
             (State (Provider ∅ (Some sample_config) (Some 0) ["earlier"])
                    (World [new_connection] [Cursor 0 false None] 0))).
Proof.
  apply (call_outcome_stateless (quiet_server [[SqlInt 1]]) select_1 configured_state
           (State (Provider ∅ (Some sample_config) (Some 0) ["earlier"])
                  (World [new_connection] [Cursor 0 false None] 0)));
    reflexivity.
Defined.

(** ** Failures *)

(** X5.  When [notify] raises, no call to [conn.commit()] has completed:
    the store of connections is as before, or holds one more connection,
    closed, on which [commit] was not carried out.  (This counts the calls
    the method made on its connection object; what the statement itself
    did on the server is not part of it.) *)
Theorem notify_failure_no_commit_call srv kwargs st e st' :
  notify srv kwargs st = (Raise e, st') ->
  connections (db st') = connections (db st) \/
  exists c,
    connections (db st') = connections (db st) ++ [c] /\
    closed c = true /\ commits c = 0.
Proof.
  destruct st as [p [l cs t]]. cbn [db connections]. intros H.
  pose proof (notify_effect srv kwargs p l cs t) as E. cbn zeta in E.
  rewrite H in E. cbn [fst snd] in E.
  destruct E as [(_ & -> & _)|(c & Hc & _ & Hcl & Hp & [[? _]|(e' & _ & H0 & Hcm)])].
  - left. reflexivity.
  - discriminate.
  - right. exists c. auto.
Qed.

Lemma notify_failure_no_commit_call_witness :
  notify (failing_server 4 OperationalError) insert_1 configured_state
  = (Raise OperationalError,
     State (Provider sample_authentication (Some sample_config) (Some 0) [])
           (World [Connection true [] [] 0]
                  [Cursor 0 true None; Cursor 0 true (Some [])] 5)) /\
  ([Connection true [] [] 0] = connections (db configured_state) \/
   exists c,
     [Connection true [] [] 0] = connections (db configured_state) ++ [c] /\
     closed c = true /\ commits c = 0).
Proof.
  assert (H : notify (failing_server 4 OperationalError) insert_1 configured_state
              = (Raise OperationalError,
                 State (Provider sample_authentication (Some sample_config) (Some 0) [])
                       (World [Connection true [] [] 0]
                              [Cursor 0 true None; Cursor 0 true (Some [])] 5)))
    by (vm_compute; reflexivity).
  split; [exact H|].
  exact (notify_failure_no_commit_call _ _ _ _ _ H).
Defined.

Section Failures.

Variable srv : server.
Variable kwargs : gmap string pyval.
Variables (p : PostgresProvider) (l : list connection) (cs : list cursor) (t : nat).

(** The first driver call that fails decides the exception. *)
Lemma first_fault_raised q cfg i e :
  dict_get kwargs "query" = PStr q -> q <> "" ->
  authentication_config p = Some cfg ->
  accepts srv (database cfg) (username cfg) (password cfg) (host cfg) (port cfg)
    = true ->
  i < 5 ->
  (forall j, j < i -> fault srv (j + t) = None) ->
  fault srv (i + t) = Some e ->
  fst (query srv kwargs (State p (World l cs t))) = Raise e /\
  fst (notify srv kwargs (State p (World l cs t))) = Raise e.
Proof.
  intros Hq Hne Hcfg Hacc Hi Hbefore Hat.
  assert (Ht : truthy (PStr q) = true) by (apply truthy_PStr; eauto).
  unfold query, notify. rewrite Hq, Ht.
  destruct i as [|[|[|[|[|i]]]]]; [..|lia]; cbn in Hat.
  - split; exec; reflexivity.
  - pose proof (Hbefore 0 ltac:(lia)) as F0. cbn in F0.
    split; exec; reflexivity.
  - pose proof (Hbefore 0 ltac:(lia)) as F0. pose proof (Hbefore 1 ltac:(lia)) as F1.
    cbn in F0, F1. split; exec; reflexivity.
  - pose proof (Hbefore 0 ltac:(lia)) as F0. pose proof (Hbefore 1 ltac:(lia)) as F1.
    pose proof (Hbefore 2 ltac:(lia)) as F2.
    cbn in F0, F1, F2. split; exec; reflexivity.
  - pose proof (Hbefore 0 ltac:(lia)) as F0. pose proof (Hbefore 1 ltac:(lia)) as F1.
    pose proof (Hbefore 2 ltac:(lia)) as F2. pose proof (Hbefore 3 ltac:(lia)) as F3.
    cbn in F0, F1, F2, F3. split; exec; reflexivity.
Qed.

(** A statement that has no result set. *)
Lemma no_result_set_run q cfg :
  dict_get kwargs "query" = PStr q -> q <> "" ->
  authentication_config p = Some cfg ->
  accepts srv (database cfg) (username cfg) (password cfg) (host cfg) (port cfg)
    = true ->
  (forall i, i < 5 -> fault srv (i + t) = None) ->
  result_set srv (3 + t) q = None ->
  fst (query srv kwargs (State p (World l cs t))) = Raise ProgrammingError.
Proof.
  intros Hq Hne Hcfg Hacc Hf Hrows.
  apply no_fault_5 in Hf. destruct Hf as (F0 & F1 & F2 & F3 & F4).
  cbn in Hrows.
  assert (Ht : truthy (PStr q) = true) by (apply truthy_PStr; eauto).
  unfold query. rewrite Hq, Ht.
  exec. reflexivity.
Qed.

(** A connection that cannot be made. *)
Lemma connect_failure_run cfg e :
  truthy (dict_get kwargs "query") = true ->
  authentication_config p = Some cfg ->
  fault srv t = Some e \/
  (fault srv t = None /\
   accepts srv (database cfg) (username cfg) (password cfg) (host cfg) (port cfg)
     = false /\
   e = OperationalError) ->
  query srv kwargs (State p (World l cs t))
    = (Raise e, State p (World l cs (S t))) /\
  notify srv kwargs (State p (World l cs t))
    = (Raise e, State p (World l cs (S t))).
Proof.
  intros Ht Hcfg H. unfold query, notify. rewrite Ht.
  destruct H as [F|(F & Hacc & ->)]; split; exec; reflexivity.
Qed.

(** The cursors of a call that reached the execution of the statement. *)
Lemma query_cursors_run r st' :
  query srv kwargs (State p (World l cs t)) = (r, st') ->
  4 + t <= clock (db st') ->
  exists rs,
    cursors (db st')
    = cs ++ [Cursor (length l) true None;
             Cursor (length l) (match r with Return _ => true | Raise _ => false end) rs].
Proof.
  unfold query.
  destruct (negb (truthy (dict_get kwargs "query")));
    [intros [= <- <-]; cbn; lia|].
  destruct (dict_get kwargs "query") as [|q].
  all: exec_cases.
  all: intros [= <- <-]; cbn; try lia; intros _.
  all: rewrite ?update_snoc2, <- ?app_assoc; cbn; eexists; reflexivity.
Qed.

End Failures.

(** X6.  An exception of the driver reaches the caller as it is: when the
    connection parameters are accepted, the first of the five driver calls
    to fail -- connecting, creating either cursor, executing, then
    fetching (for [query]) or committing (for [notify]) -- decides the
    exception that the method raises; closing in the [finally] clause does
    not replace it. *)
Theorem first_fault_propagates srv kwargs st q cfg i e :
  dict_get kwargs "query" = PStr q -> q <> "" ->
  authentication_config (self st) = Some cfg ->
  accepts srv (database cfg) (username cfg) (password cfg) (host cfg) (port cfg)
    = true ->
  i < 5 ->
  (forall j, j < i -> fault srv (j + clock (db st)) = None) ->
  fault srv (i + clock (db st)) = Some e ->
  fst (query srv kwargs st) = Raise e /\
  fst (notify srv kwargs st) = Raise e.
Proof. destruct st as [p [l cs t]]. apply first_fault_raised. Qed.

Lemma first_fault_propagates_witness :
  fst (query (failing_server 3 DatabaseError) select_1 configured_state)
    = Raise DatabaseError /\
  fst (notify (failing_server 3 DatabaseError) select_1 configured_state)
    = Raise DatabaseError.
Proof.
  apply (first_fault_propagates (failing_server 3 DatabaseError) select_1
           configured_state "select 1" sample_config 3 DatabaseError).
  - vm_compute. reflexivity.
  - discriminate.
  - reflexivity.
  - reflexivity.
  - lia.
  - intros j Hj. cbn. destruct j as [|[|[|j]]]; [reflexivity..|lia].
  - reflexivity.
Defined.

(** X7.  A statement without a result set, given to [query], is executed
    and then makes the call fail when the rows are fetched, although no
    driver call failed; the same statement given to [notify] succeeds. *)
Theorem statement_without_result_set srv kwargs st q cfg :
  dict_get kwargs "query" = PStr q -> q <> "" ->
  authentication_config (self st) = Some cfg ->
  accepts srv (database cfg) (username cfg) (password cfg) (host cfg) (port cfg)
    = true ->
  (forall i, i < 5 -> fault srv (i + clock (db st)) = None) ->
  result_set srv (3 + clock (db st)) q = None ->
  fst (query srv kwargs st) = Raise ProgrammingError /\
  fst (notify srv kwargs st) = Return tt.
Proof.
  destruct st as [p [l cs t]]. cbn [self db clock]. intros Hq Hne Hcfg Hacc Hf Hrows.
  split.
  - eapply no_result_set_run; eassumption.
  - eapply notify_run; eassumption.
Qed.

Lemma statement_without_result_set_witness :
  fst (query silent_server insert_1 configured_state) = Raise ProgrammingError /\
  fst (notify silent_server insert_1 configured_state) = Return tt.
Proof.
  apply (statement_without_result_set silent_server insert_1 configured_state
           "insert into t values (1)" sample_config).
  - vm_compute. reflexivity.
  - discriminate.
  - reflexivity.
  - reflexivity.
  - intros i Hi. reflexivity.
  - reflexivity.
Defined.

(** X8.  When the connection cannot be made -- the driver fails while
    connecting, or the server refuses the login -- [query] and [notify]
    raise that exception and leave the provider as it was: [self.conn] is
    assigned only after [psycopg2.connect] has returned, and no connection
    or cursor object was created. *)
Theorem connect_failure_leaves_provider srv kwargs st cfg e :
  truthy (dict_get kwargs "query") = true ->
  authentication_config (self st) = Some cfg ->
  fault srv (clock (db st)) = Some e \/
  (fault srv (clock (db st)) = None /\
   accepts srv (database cfg) (username cfg) (password cfg) (host cfg) (port cfg)
     = false /\
   e = OperationalError) ->
  query srv kwargs st
    = (Raise e, State (self st)
                  (World (connections (db st)) (cursors (db st)) (S (clock (db st))))) /\
  notify srv kwargs st
    = (Raise e, State (self st)
                  (World (connections (db st)) (cursors (db st)) (S (clock (db st))))).
Proof. destruct st as [p [l cs t]]. apply connect_failure_run. Qed.

Lemma connect_failure_leaves_provider_witness :
  query refusing_server select_1 holding_state
    = (Raise OperationalError,
       State (self holding_state)
         (World (connections (db holding_state)) (cursors (db holding_state))
                (S (clock (db holding_state))))) /\
  notify refusing_server select_1 holding_state
    = (Raise OperationalError,
       State (self holding_state)
         (World (connections (db holding_state)) (cursors (db holding_state))
                (S (clock (db holding_state))))).
Proof.
  apply (connect_failure_leaves_provider refusing_server select_1 holding_state
           sample_config OperationalError).
  - vm_compute. reflexivity.
  - reflexivity.
  - right. repeat split; reflexivity.
Defined.

(** X9.  Once [query] has got as far as executing the statement (four
    driver calls or more were made), the state holds two new
    cursors on the new connection: the one managed by the [with] statement,
    never used and closed on leaving the block, and the one that executed
    the statement, which is closed when [query] returns and left unclosed
    when it raises. *)
Theorem query_cursors srv kwargs st r st' :
  query srv kwargs st = (r, st') ->
  4 + clock (db st) <= clock (db st') ->
  exists rs,
    cursors (db st')
    = cursors (db st)
      ++ [Cursor (length (connections (db st))) true None;
          Cursor (length (connections (db st)))
                 (match r with Return _ => true | Raise _ => false end) rs].
Proof. destruct st as [p [l cs t]]. apply query_cursors_run. Qed.

Lemma query_cursors_witness :
  query silent_server select_1 configured_state
  = (Raise ProgrammingError,
     State (Provider sample_authentication (Some sample_config) (Some 0) [])
           (World [Connection true [] [] 0]
                  [Cursor 0 true None; Cursor 0 false None] 5)) /\
  exists rs,
    [Cursor 0 true None; Cursor 0 false None]
    = cursors (db configured_state)
      ++ [Cursor (length (connections (db configured_state))) true None;
          Cursor (length (connections (db configured_state))) false rs].
Proof.
  assert (H : query silent_server select_1 configured_state
              = (Raise ProgrammingError,
                 State (Provider sample_authentication (Some sample_config) (Some 0) [])
                       (World [Connection true [] [] 0]
                              [Cursor 0 true None; Cursor 0 false None] 5)))
    by (vm_compute; reflexivity).
  split; [exact H|].
  apply (query_cursors silent_server select_1 configured_state _ _ H).
  cbn. lia.
Defined.

(** ** Calls in sequence *)

Lemma close_connection_closed c :
  closed c = true -> pending c = [] -> close_connection c = c.
Proof. destruct c as [b pd cm n]. cbn. intros -> ->. reflexivity. Qed.

(** Disposing of a provider whose handle names a closed connection changes
    nothing. *)
Lemma dispose_closed st h c :
  conn (self st) = Some h ->
  connections (db st) !! h = Some c ->
  closed c = true -> pending c = [] ->
  dispose st = (Return tt, st).
Proof.
  destruct st as [p [l cs t]]. cbn [self db connections]. intros Hconn Hh Hc Hp.
  unfold dispose, dispose_with, try_except, self_conn_close, bind, get_self. cbn.
  rewrite Hconn. unfold connection_close, bind, get_db, put_db, set_db. cbn.
  unfold update. rewrite Hh, close_connection_closed by assumption.
  rewrite list_insert_id by exact Hh. reflexivity.
Qed.

Lemma dispose_eq st :
  dispose st =
  match conn (self st) with
  | Some h =>
      (Return tt,
       set_db (World (update h close_connection (connections (db st)))
                     (cursors (db st)) (clock (db st))) st)
  | None =>
      (Return tt,
       set_self (Provider (config_authentication (self st))
                          (authentication_config (self st)) None
                          (logger (self st) ++ ["Error closing Postgres connection"]))
         st)
  end.
Proof.
  destruct st as [p w].
  unfold dispose, dispose_with, try_except, self_conn_close, bind, get_self. cbn.
  destruct (conn p) as [h|] eqn:Hc; cbn; [reflexivity|].
  unfold logger_exception, bind, get_self, put_self, set_self. cbn.
  rewrite Hc. reflexivity.
Qed.

(** X10.  After a call to [query] or [notify] that made a connection,
    [dispose] finds that connection already closed: it returns without
    logging anything and leaves the state exactly as the call left it. *)
Theorem dispose_after_call srv kwargs st st' :
  st' = snd (query srv kwargs st) \/ st' = snd (notify srv kwargs st) ->
  length (connections (db st')) <> length (connections (db st)) ->
  dispose st' = (Return tt, st').
Proof.
  destruct st as [p [l cs t]]. cbn [db connections]. intros [-> | ->] Hlen.
  - destruct (query_effect srv kwargs p l cs t)
      as [(_ & Hl & _)|(c & Hl & Hs & Hc & Hp & _)].
    + rewrite Hl in Hlen. congruence.
    + apply (dispose_closed _ (length l) c); auto.
      * rewrite Hs. reflexivity.
      * rewrite Hl. apply lookup_snoc.
  - destruct (notify_effect srv kwargs p l cs t)
      as [(_ & Hl & _)|(c & Hl & Hs & Hc & Hp & _)].
    + rewrite Hl in Hlen. congruence.
    + apply (dispose_closed _ (length l) c); auto.
      * rewrite Hs. reflexivity.
      * rewrite Hl. apply lookup_snoc.
Qed.

Lemma dispose_after_call_witness :
  dispose notified_state = (Return tt, notified_state).
Proof.
  apply (dispose_after_call (quiet_server []) insert_1 configured_state notified_state).
  - right. vm_compute. reflexivity.
  - cbn. lia.
Defined.

(** X11.  A [notify] that succeeds followed by a [query] that succeeds:
    each call made its own connection; the store holds both, closed, the
    first with the statement of [notify] committed once and the second
    with nothing committed; [self.conn] names the second; and the rows
    returned are the result set the server gave when [query] ran. *)
Theorem notify_then_query srv kwargs1 kwargs2 st st1 rows st2 :
  notify srv kwargs1 st = (Return tt, st1) ->
  query srv kwargs2 st1 = (Return rows, st2) ->
  exists q1 q2,
    dict_get kwargs1 "query" = PStr q1 /\
    dict_get kwargs2 "query" = PStr q2 /\
    connections (db st2)
      = connections (db st) ++ [Connection true [] [q1] 1; Connection true [] [] 0] /\
    conn (self st2) = Some (S (length (connections (db st)))) /\
    result_set srv (8 + clock (db st)) q2 = Some rows.
Proof.
  destruct st as [p [l cs t]]. cbn [db connections clock]. intros H1 H2.
  pose proof (notify_Return_world _ _ _ _ _ _ _ H1) as Hclock.
  apply notify_Return_inv in H1.
  destruct H1 as (q1 & cfg1 & Hq1 & _ & _ & _ & _ & _ & Hl1).
  destruct st1 as [p1 [l1 cs1 t1]]. cbn in Hclock, Hl1. subst t1 l1.
  pose proof (query_Return_world _ _ _ _ _ _ _ _ H2) as (Hconn & Hl2 & _ & _).
  apply query_Return_inv in H2.
  destruct H2 as (q2 & cfg2 & Hq2 & _ & _ & _ & _ & Hrows).
  exists q1, q2. repeat split; try assumption.
  - rewrite Hl2, <- app_assoc. reflexivity.
  - rewrite Hconn, length_app. cbn. f_equal. lia.
Qed.

Lemma notify_then_query_witness :
  exists q1 q2,
    dict_get insert_1 "query" = PStr q1 /\
    dict_get select_1 "query" = PStr q2 /\
    connections (db (snd (query (quiet_server []) select_1 notified_state)))
      = connections (db configured_state)
        ++ [Connection true [] [q1] 1; Connection true [] [] 0] /\
    conn (self (snd (query (quiet_server []) select_1 notified_state)))
      = Some (S (length (connections (db configured_state)))) /\
    result_set (quiet_server []) (8 + clock (db configured_state)) q2
      = Some [].
Proof.
  apply (notify_then_query (quiet_server []) insert_1 select_1
           configured_state notified_state []).
  - vm_compute. reflexivity.
  - vm_compute. reflexivity.
Defined.

(** ** The provider at rest *)

Lemma at_rest_released st st' : released st st' -> at_rest st -> at_rest st'.
Proof.
  intros Hr [Hall Hconn]. split; [eapply released_all_closed; eauto|].
  destruct Hr as [_ _ Hold [Heq|(h & -> & Hh)]]; [|exact Hh].
  rewrite Heq. destruct (conn (self st)); [auto|exact I].
Qed.

Lemma at_rest_validate_config extra st :
  at_rest st -> at_rest (snd (validate_config extra st)).
Proof.
  rewrite validate_config_eq.
  destruct (PostgresProviderAuthConfig_new _ _); [|auto].
  destruct st as [p w]. auto.
Qed.

Lemma at_rest_dispose st : at_rest st -> at_rest (snd (dispose st)).
Proof.
  rewrite dispose_eq. destruct st as [p [l cs t]]. unfold at_rest, all_closed. cbn.
  destruct (conn p) as [h|] eqn:Hc; cbn; rewrite ?Hc.
  - intros [Hall Hh]. split.
    + intros h' Hlt. rewrite length_update in Hlt.
      apply closed_at_update; [reflexivity|auto].
    + apply closed_at_update; [reflexivity|exact Hh].
  - intros [Hall _]. auto.
Qed.

(** X12.  However a client uses the provider, no connection stays open
    between calls: starting from a state at rest (for instance a provider
    just constructed), after any sequence of calls to [validate_config],
    [query], [notify] and [dispose] -- with any arguments, any behaviour of
    the server and any outcomes -- every connection object is closed and
    [self.conn] is [None] or names a closed connection. *)
Theorem at_rest_after_calls srv extra calls st :
  at_rest st -> at_rest (after_calls srv extra calls st).
Proof.
  unfold after_calls. revert st.
  induction calls as [|c calls IH]; intros st Hst; [exact Hst|].
  cbn [foldl]. apply IH.
  destruct c as [|kwargs|kwargs|]; cbn [after_call].
  - apply at_rest_validate_config, Hst.
  - eapply at_rest_released; [apply query_released|exact Hst].
  - eapply at_rest_released; [apply notify_released|exact Hst].
  - apply at_rest_dispose, Hst.
Qed.

Lemma at_rest_after_calls_witness :
  at_rest sample_state /\
  at_rest (after_calls (failing_server 8 OperationalError) ExtraForbid
             [CallDispose; CallQuery select_1; CallValidateConfig;
              CallNotify insert_1; CallQuery select_1; CallDispose]
             sample_state).
Proof.
  assert (H : at_rest sample_state).
  { split; [intros h Hh; cbn in Hh; lia|exact I]. }
  split; [exact H|].
  exact (at_rest_after_calls (failing_server 8 OperationalError) ExtraForbid
           [CallDispose; CallQuery select_1; CallValidateConfig;
            CallNotify insert_1; CallQuery select_1; CallDispose]
           sample_state H).
Defined.

(** The sequence of the witness: the first [query] fails for want of a
    validated configuration, [notify] succeeds, the second [query] fails
    while its statement executes; two connections were made and both are
    closed. *)
Example calls_sample :
  db (after_calls (failing_server 8 OperationalError) ExtraForbid
        [CallDispose; CallQuery select_1; CallValidateConfig;
         CallNotify insert_1; CallQuery select_1; CallDispose]
        sample_state)
  = World [Connection true [] ["insert into t values (1)"] 1; Connection true [] [] 0]
          [Cursor 0 true None; Cursor 0 true (Some []);
           Cursor 1 true None; Cursor 1 false None]
          9.
Proof. vm_compute. reflexivity. Qed.

(** ** The parameters of the connection *)

(** X13.  A call that returns has connected with the stored configuration:
    the server accepted a login made with its [database] as the database
    name, its [username] as the user, its [password], its [host] and its
    [port]. *)
Theorem call_uses_stored_configuration srv kwargs st :
  (exists rows st', query srv kwargs st = (Return rows, st')) \/
  (exists st', notify srv kwargs st = (Return tt, st')) ->
  exists cfg,
    authentication_config (self st) = Some cfg /\
    accepts srv (database cfg) (username cfg) (password cfg) (host cfg) (port cfg)
      = true.
Proof.
  destruct st as [p [l cs t]]. cbn [self].
  intros [(rows & st' & H)|(st' & H)].
  - apply query_Return_inv in H.
    destruct H as (q & cfg & _ & _ & Hcfg & Hacc & _). eauto.
  - apply notify_Return_inv in H.
    destruct H as (q & cfg & _ & _ & Hcfg & Hacc & _). eauto.
Qed.

Lemma call_uses_stored_configuration_witness :
  exists cfg,
    authentication_config (self configured_state) = Some cfg /\
    accepts picky_server (database cfg) (username cfg) (password cfg) (host cfg)
      (port cfg) = true.
Proof.
  apply (call_uses_stored_configuration picky_server select_1 configured_state).
  left. exists [], (snd (query picky_server select_1 configured_state)).
  vm_compute. reflexivity.
Defined.

(** With another password the login is refused and the call raises. *)
Example query_wrong_password :
  fst (query picky_server select_1
         (State (Provider sample_authentication
                   (Some (AuthConfig "u" "other" "localhost" (Some "db") (Some "5432")))
                   None [])
                empty_world))
  = Raise OperationalError.
Proof. vm_compute. reflexivity. Qed.
